(** * Inventory application: the product service and the client container

    The definitions follow the repository's layout:
    - [models]                    the [Product] table of models.py;
    - [database]                  the ORM session the service keeps for its
                                  lifetime (database.py);
    - [inventory_service]         the [InventoryService] of the SQLite setup
                                  guide (services/inventory_service.py);
    - [inventory_service_guarded] the same service as the troubleshooting
                                  guide rewrites it;
    - [App], [App_documented]     the product container of App.tsx and the
                                  delete handler of the delete documentation;
    - [Dashboard]                 the derived metrics of
                                  components/Dashboard.tsx;
    - [inventory_routes]          the blueprint over the service;
    - [pagination]                the paginated listing and the page buttons
                                  of the pagination guide;
    - [service_calls]             histories of calls on one service;
    - [CategoryChart], [LowStockAlert], [InventoryList]
                                  the components that read the product list.
    The properties of each part come after the definitions, in the modules
    [models_facts] to [components_spec]. *)

From stdpp Require Import gmap strings list fin_maps pretty.
From Stdlib Require Import ZArith QArith.
Local Open Scope Z_scope.
Local Open Scope string_scope.
Local Open Scope list_scope.

(* ===================================================================== *)
(** ** models.py *)
(* ===================================================================== *)

Module models.

(** Values a JSON request body hands to the service and a column holds.
    A float is kept as its binary64 bit pattern. The table is SQLite, whose
    column types are affinities, not constraints: a row gives back the value
    it was given, which is how the store is modelled here. *)
Inductive value :=
| VNone
| VBool (b : bool)
| VInt (n : Z)
| VFloat (bits : Z)
| VStr (s : string).

#[global] Instance value_eq_dec : EqDecision value.
Proof. solve_decision. Defined.

(** [class Product(Base)]: one attribute per column, [id] the primary key. *)
Record Product := {
  id : value;
  name : value;
  category : value;
  quantity : value;
  unit : value;
  expirationDate : value;
  supplier : value;
  price : value;
  sku : value
}.

#[global] Instance Product_eq_dec : EqDecision Product.
Proof. solve_decision. Defined.

(** The mapped attributes of the class, one per column. *)
Inductive attribute :=
| a_id | a_name | a_category | a_quantity | a_unit | a_expirationDate
| a_supplier | a_price | a_sku.

#[global] Instance attribute_eq_dec : EqDecision attribute.
Proof. solve_decision. Defined.

Definition attributes : list attribute :=
  [a_id; a_name; a_category; a_quantity; a_unit; a_expirationDate;
   a_supplier; a_price; a_sku].

Definition attribute_name (a : attribute) : string :=
  match a with
  | a_id => "id"
  | a_name => "name"
  | a_category => "category"
  | a_quantity => "quantity"
  | a_unit => "unit"
  | a_expirationDate => "expirationDate"
  | a_supplier => "supplier"
  | a_price => "price"
  | a_sku => "sku"
  end.


(** The attribute a key names, if any. The attributes every declarative
    class inherits besides its columns ([metadata], [registry]) are left
    out. *)
Definition attribute_named (key : string) : option attribute :=
  find (λ a, bool_decide (attribute_name a = key)) attributes.

Definition attr_get (p : Product) (a : attribute) : value :=
  match a with
  | a_id => id p
  | a_name => name p
  | a_category => category p
  | a_quantity => quantity p
  | a_unit => unit p
  | a_expirationDate => expirationDate p
  | a_supplier => supplier p
  | a_price => price p
  | a_sku => sku p
  end.

Definition attr_set (p : Product) (a : attribute) (v : value) : Product :=
  match a with
  | a_id =>
      {| id := v; name := name p; category := category p; quantity := quantity p;
         unit := unit p; expirationDate := expirationDate p;
         supplier := supplier p; price := price p; sku := sku p |}
  | a_name =>
      {| id := id p; name := v; category := category p; quantity := quantity p;
         unit := unit p; expirationDate := expirationDate p;
         supplier := supplier p; price := price p; sku := sku p |}
  | a_category =>
      {| id := id p; name := name p; category := v; quantity := quantity p;
         unit := unit p; expirationDate := expirationDate p;
         supplier := supplier p; price := price p; sku := sku p |}
  | a_quantity =>
      {| id := id p; name := name p; category := category p; quantity := v;
         unit := unit p; expirationDate := expirationDate p;
         supplier := supplier p; price := price p; sku := sku p |}
  | a_unit =>
      {| id := id p; name := name p; category := category p; quantity := quantity p;
         unit := v; expirationDate := expirationDate p;
         supplier := supplier p; price := price p; sku := sku p |}
  | a_expirationDate =>
      {| id := id p; name := name p; category := category p; quantity := quantity p;
         unit := unit p; expirationDate := v;
         supplier := supplier p; price := price p; sku := sku p |}
  | a_supplier =>
      {| id := id p; name := name p; category := category p; quantity := quantity p;
         unit := unit p; expirationDate := expirationDate p;
         supplier := v; price := price p; sku := sku p |}
  | a_price =>
      {| id := id p; name := name p; category := category p; quantity := quantity p;
         unit := unit p; expirationDate := expirationDate p;
         supplier := supplier p; price := v; sku := sku p |}
  | a_sku =>
      {| id := id p; name := name p; category := category p; quantity := quantity p;
         unit := unit p; expirationDate := expirationDate p;
         supplier := supplier p; price := price p; sku := v |}
  end.

(** [hasattr(product, key)] *)
Definition hasattr (key : string) : bool :=
  match attribute_named key with Some _ => true | None => false end.

(** [getattr(product, key)]; [None] stands for AttributeError. *)
Definition getattr (p : Product) (key : string) : option value :=
  attr_get p <$> attribute_named key.

(** [setattr(product, key, value)]; the callers guard it with [hasattr]. *)
Definition setattr (p : Product) (key : string) (v : value) : Product :=
  match attribute_named key with
  | Some a => attr_set p a v
  | None => p
  end.

(** A fresh instance: every column attribute reads [None] until it is set. *)
Definition blank : Product :=
  {| id := VNone; name := VNone; category := VNone; quantity := VNone;
     unit := VNone; expirationDate := VNone; supplier := VNone;
     price := VNone; sku := VNone |}.

End models.

(* ===================================================================== *)
(** ** database.py: the session *)
(* ===================================================================== *)

(** SQLAlchemy's session is a library, not code of the repository. The
    module gives the part of its behaviour the service relies on: objects
    are queued by add(), delete() and attribute writes, commit() flushes
    the queue against the table, which holds one row per primary key, and a
    commit whose flush fails raises and leaves the session unusable until
    rollback() is called. *)
Module database.
Import models.

Inductive exn :=
| TypeError              (* the Product constructor given a keyword that is no attribute *)
| IntegrityError         (* primary key constraint refused by the table *)
| FlushError             (* instance with a NULL identity key *)
| InvalidRequestError    (* refresh of an instance that has no row *)
| PendingRollbackError.  (* session used after a failed flush, before rollback() *)

Inductive outcome (A : Type) :=
| Return (a : A)
| Raise (e : exn).
Arguments Return {A} a.
Arguments Raise {A} e.

(** What a session has been told and has not yet flushed. *)
Inductive pending :=
| Insert (p : Product)                 (* session.add(p) *)
| Update (pk : value) (p : Product)    (* attribute writes on the row loaded under pk *)
| Delete (pk : value).                 (* session.delete(p) *)

(** [SessionLocal()]: the committed rows of table products, the unit of
    work, and whether a flush has failed without a rollback() since. *)
Record Session := {
  rows : list Product;
  work : list pending;
  inactive : bool
}.

(** Computations on the one session of the service: a result or an
    exception, and the session afterwards. *)
Definition M (A : Type) : Type := Session → outcome A * Session.

#[global] Instance M_ret : MRet M := λ A a s, (Return a, s).
#[global] Instance M_bind : MBind M := λ A B f m s,
  match m s with
  | (Return a, s') => f a s'
  | (Raise e, s') => (Raise e, s')
  end.

Definition raise {A : Type} (e : exn) : M A := λ s, (Raise e, s).

(** [try: body except Exception: handler] *)
Definition try_except {A : Type} (body : M A) (handler : exn → M A) : M A := λ s,
  match body s with
  | (Return a, s') => (Return a, s')
  | (Raise e, s') => handler e s'
  end.

(** The filter [Product.id == pk] on a row. *)
Definition has_key (pk : value) (r : Product) : bool := bool_decide (id r = pk).

Definition pk_taken (rs : list Product) (pk : value) : bool :=
  existsb (has_key pk) rs.

(** UPDATE products SET ... WHERE id = pk *)
Definition replace_row (pk : value) (p : Product) (rs : list Product) : list Product :=
  (λ r, if decide (id r = pk) then p else r) <$> rs.

(** DELETE FROM products WHERE id = pk *)
Definition remove_row (pk : value) (rs : list Product) : list Product :=
  filter (λ r, id r ≠ pk) rs.

(** One statement of a flush; the table refuses a second row under a
    primary key, an instance without a key cannot be flushed. *)
Definition apply_pending (rs : list Product) (op : pending) : outcome (list Product) :=
  match op with
  | Insert p =>
      if decide (id p = VNone) then Raise FlushError
      else if pk_taken rs (id p) then Raise IntegrityError
      else Return (rs ++ [p])
  | Update pk p =>
      if decide (id p = pk) then Return (replace_row pk p rs)
      else if decide (id p = VNone) then Raise FlushError
      else if pk_taken rs (id p) then Raise IntegrityError
      else Return (replace_row pk p rs)
  | Delete pk => Return (remove_row pk rs)
  end.

Fixpoint flush (ops : list pending) (rs : list Product) : outcome (list Product) :=
  match ops with
  | [] => Return rs
  | op :: ops' =>
      match apply_pending rs op with
      | Return rs' => flush ops' rs'
      | Raise e => Raise e
      end
  end.

(** [session.add(product)] *)
Definition add (p : Product) : M () := λ s,
  (Return (), {| rows := rows s; work := work s ++ [Insert p]; inactive := inactive s |}).

(** [session.delete(product)] *)
Definition delete (p : Product) : M () := λ s,
  (Return (), {| rows := rows s; work := work s ++ [Delete (id p)]; inactive := inactive s |}).

(** Attribute writes on an instance the session loaded under [pk]: the
    instance is dirty and its new attributes go out with the next flush. *)
Definition modified (pk : value) (p : Product) : M () := λ s,
  (Return (), {| rows := rows s; work := work s ++ [Update pk p]; inactive := inactive s |}).

(** [session.commit()]: flush the unit of work and make it durable. A
    failed flush rolls the database transaction back, raises, and leaves
    the session inactive until rollback() is called. *)
Definition commit : M () := λ s,
  if inactive s then (Raise PendingRollbackError, s)
  else match flush (work s) (rows s) with
       | Return rs' => (Return (), {| rows := rs'; work := []; inactive := false |})
       | Raise e => (Raise e, {| rows := rows s; work := []; inactive := true |})
       end.

(** [session.rollback()] *)
Definition rollback : M () := λ s,
  (Return (), {| rows := rows s; work := []; inactive := false |}).

(** [session.query(Product).filter(Product.id == item_id).first()] *)
Definition query_first (item_id : string) : M (option Product) := λ s,
  if inactive s then (Raise PendingRollbackError, s)
  else (Return (find (has_key (VStr item_id)) (rows s)), s).

(** [session.query(Product).all()] *)
Definition query_all : M (list Product) := λ s,
  if inactive s then (Raise PendingRollbackError, s)
  else (Return (rows s), s).

(** [session.refresh(product)]: read the instance's row again. *)
Definition refresh (p : Product) : M Product := λ s,
  if inactive s then (Raise PendingRollbackError, s)
  else match find (has_key (id p)) (rows s) with
       | Some r => (Return r, s)
       | None => (Raise InvalidRequestError, s)
       end.

(** The state of the session between two calls of the service that both
    returned: nothing pending, no failed flush outstanding. *)
Definition idle (s : Session) : Prop := work s = [] ∧ inactive s = false.


End database.

(* ===================================================================== *)
(** ** services/inventory_service.py *)
(* ===================================================================== *)

Module inventory_service.
Import models database.

(** What a method hands back: [{'message': m}], [{'message': m, 'item': d}]
    or, where a method catches its exceptions, [{'error': str(e)}]. *)
Inductive response :=
| Message (message : string)
| MessageItem (message : string) (item : gmap string value)
| Error (e : exn).

(** The dictionary every method serialises an instance to. *)
Definition to_dict (product : Product) : gmap string value :=
  list_to_map [
    ("id", id product);
    ("name", name product);
    ("category", category product);
    ("quantity", quantity product);
    ("unit", unit product);
    ("expirationDate", expirationDate product);
    ("supplier", supplier product);
    ("price", price product);
    ("sku", sku product)
  ].

(** The constructor call [Product] on the keywords of [data]: it sets each keyword on the
    new instance and raises TypeError at a keyword that is no attribute. *)
Definition Product_init (data : gmap string value) : outcome Product :=
  map_fold (λ key v acc,
    match acc with
    | Return p => if hasattr key then Return (setattr p key v) else Raise TypeError
    | Raise e => Raise e
    end) (Return blank) data.

Definition add_item (data : gmap string value) : M response :=
  match Product_init data with
  | Raise e => raise e
  | Return product =>
      add product;;
      commit;;
      product ← refresh product;
      mret (MessageItem "Item added" (to_dict product))
  end.

Definition get_items : M (list (gmap string value)) :=
  products ← query_all;
  mret (to_dict <$> products).

Definition get_item (item_id : string) : M (option (gmap string value)) :=
  product ← query_first item_id;
  match product with
  | None => mret None
  | Some product => mret (Some (to_dict product))
  end.

(** The loop [for key, value in data.items(): if hasattr(product, key):
    setattr(product, key, value)]. *)
Definition update_attributes (product : Product) (data : gmap string value) : Product :=
  map_fold (λ key v p, if hasattr key then setattr p key v else p) product data.

Definition update_item (item_id : string) (data : gmap string value) : M response :=
  product ← query_first item_id;
  match product with
  | None => mret (Message "Item not found")
  | Some product =>
      let product' := update_attributes product data in
      modified (id product) product';;
      commit;;
      mret (MessageItem "Item updated" (to_dict product'))
  end.

Definition delete_item (item_id : string) : M response :=
  product ← query_first item_id;
  match product with
  | None => mret (Message "Item not found")
  | Some product =>
      delete product;;
      commit;;
      mret (Message "Item deleted")
  end.

End inventory_service.

(* ===================================================================== *)
(** ** The service as the troubleshooting guide rewrites it *)
(* ===================================================================== *)

(** Documentation/api_endpoint_troubleshooting.md gives the whole file
    again: every method runs in [try] and on an exception calls
    rollback() and returns [{'error': str(e)}]; the update loop skips the
    key [id]. *)
Module inventory_service_guarded.
Import models database inventory_service.

(** [Product(id=data.get('id'), ..., sku=data.get('sku'))] *)
Definition Product_of (data : gmap string value) : Product :=
  {| id := default VNone (data !! "id");
     name := default VNone (data !! "name");
     category := default VNone (data !! "category");
     quantity := default VNone (data !! "quantity");
     unit := default VNone (data !! "unit");
     expirationDate := default VNone (data !! "expirationDate");
     supplier := default VNone (data !! "supplier");
     price := default VNone (data !! "price");
     sku := default VNone (data !! "sku") |}.

Definition add_item (data : gmap string value) : M response :=
  try_except
    (let product := Product_of data in
     add product;;
     commit;;
     product ← refresh product;
     mret (MessageItem "Item added" (to_dict product)))
    (λ e, rollback;; mret (Error e)).

(** The loop [if hasattr(product, key) and key != 'id': setattr(...)]. *)
Definition update_attributes (product : Product) (data : gmap string value) : Product :=
  map_fold (λ key v p,
    if hasattr key && negb (bool_decide (key = "id")) then setattr p key v else p)
    product data.

Definition update_item (item_id : string) (data : gmap string value) : M response :=
  try_except
    (product ← query_first item_id;
     match product with
     | None => mret (Message "Item not found")
     | Some product =>
         let product' := update_attributes product data in
         modified (id product) product';;
         commit;;
         mret (MessageItem "Item updated" (to_dict product'))
     end)
    (λ e, rollback;; mret (Error e)).

(** What the rewritten [get_items] and [get_item] hand back: the list or
    the dictionary, [None], or [{'error': str(e)}]. *)
Inductive listing :=
| Listing (items : list (gmap string value))
| ListingError (e : exn).

Inductive lookup :=
| Found (item : gmap string value)
| NotFound
| LookupError (e : exn).

Definition get_items : M listing :=
  try_except
    (products ← query_all;
     mret (Listing (to_dict <$> products)))
    (λ e, mret (ListingError e)).

Definition get_item (item_id : string) : M lookup :=
  try_except
    (product ← query_first item_id;
     match product with
     | None => mret NotFound
     | Some product => mret (Found (to_dict product))
     end)
    (λ e, mret (LookupError e)).

Definition delete_item (item_id : string) : M response :=
  try_except
    (product ← query_first item_id;
     match product with
     | None => mret (Message "Item not found")
     | Some product =>
         delete product;;
         commit;;
         mret (Message "Item deleted")
     end)
    (λ e, rollback;; mret (Error e)).

End inventory_service_guarded.

(* ===================================================================== *)
(** ** api/inventory_routes.py *)
(* ===================================================================== *)

(** The blueprint of the setup guide, over the one [service] of the module.
    A view returns the body it hands to [jsonify] and the status; an
    exception that leaves a view is the framework's to answer. *)
Module inventory_routes.
Import models database inventory_service.

(** What a view passes to [jsonify]: a service result, an item, a list of
    items, or the set literal of the not-found branch. *)
Inductive body :=
| BodyResponse (r : response)
| BodyItem (item : gmap string value)
| BodyItems (items : list (gmap string value))
| BodySet (elements : list string).

(** [jsonify(obj)]: dictionaries and lists are serialised, a set is not a
    JSON type and raises TypeError. *)
Definition jsonify (obj : body) : M body :=
  match obj with
  | BodySet _ => raise TypeError
  | _ => mret obj
  end.

(** [@inventory_bp.route("", methods=["POST"])], on the JSON of the request *)
Definition add_item (data : gmap string value) : M (body * Z) :=
  result ← inventory_service.add_item data;
  b ← jsonify (BodyResponse result);
  mret (b, 201).

(** [@inventory_bp.route("", methods=['GET'])] *)
Definition get_items : M (body * Z) :=
  items ← inventory_service.get_items;
  b ← jsonify (BodyItems items);
  mret (b, 200).

(** [@inventory_bp.route("/<item_id>", methods=['GET'])] *)
Definition get_item (item_id : string) : M (body * Z) :=
  result ← inventory_service.get_item item_id;
  match result with
  | None =>
      b ← jsonify (BodySet ["error"; "Item not found"]);
      mret (b, 404)
  | Some item =>
      b ← jsonify (BodyItem item);
      mret (b, 200)
  end.

(** [@inventory_bp.route("/<item_id>", methods=['DELETE'])] *)
Definition delete_item (item_id : string) : M (body * Z) :=
  inventory_service.delete_item item_id;;
  b ← jsonify (BodyResponse (Message "Item deleted"));
  mret (b, 200).

End inventory_routes.

(* ===================================================================== *)
(** ** The paginated listing of the pagination guide *)
(* ===================================================================== *)

(** [get_items(self, page=1, per_page=20)] of the pagination guide. The
    guide's rows carry two more columns than the model above, so the
    method is given over any row type and any formatting of a row; the
    queries [count()] and [offset(offset).limit(per_page).all()] read the
    rows of the table in one scan order. Python's integers are unbounded. *)
Module pagination.

Record PaginationInfo := {
  page : Z;
  per_page : Z;
  total_items : Z;
  total_pages : Z;
  has_next : bool;
  has_prev : bool
}.

Section get_items.
Context {Row Item : Type}.
Variable format : Row → Item.

(** [query.offset(offset).limit(limit).all()] *)
Definition offset_limit (offset limit : Z) (rows : list Row) : list Row :=
  take (Z.to_nat limit) (drop (Z.to_nat offset) rows).

Definition get_items (rows : list Row) (page per_page : Z) : list Item * PaginationInfo :=
  let page := Z.max 1 page in
  let per_page := Z.min (Z.max 1 per_page) 100 in
  let offset := (page - 1) * per_page in
  let total_items := Z.of_nat (length rows) in
  let products := offset_limit offset per_page rows in
  let total_pages := (total_items + per_page - 1) `div` per_page in
  let has_next := bool_decide (page < total_pages)%Z in
  let has_prev := bool_decide (page > 1)%Z in
  let items := format <$> products in
  (items,
   {| page := page; per_page := per_page; total_items := total_items;
      total_pages := total_pages; has_next := has_next; has_prev := has_prev |}).

End get_items.

(** [components/Pagination.tsx]: the page buttons. *)
Inductive button :=
| Number (n : Z)
| Dots.

(** [for (let i = first; i <= last; i++) pages.push(i)] *)
Definition push_range (first last : Z) : list button :=
  Number <$> seqZ first (last - first + 1).

Definition getPageNumbers (currentPage totalPages : Z) : list button :=
  let maxVisible := 7%Z in
  if bool_decide (totalPages ≤ maxVisible)%Z then
    push_range 1 totalPages
  else
    [Number 1]
    ++ (if bool_decide (currentPage > 3)%Z then [Dots] else [])
    ++ push_range (Z.max 2 (currentPage - 1)) (Z.min (totalPages - 1) (currentPage + 1))
    ++ (if bool_decide (currentPage < totalPages - 2)%Z then [Dots] else [])
    ++ [Number totalPages].

(** The page numbers among the buttons, left to right. *)
Definition numbers (pages : list button) : list Z :=
  omap (λ b, match b with Number n => Some n | Dots => None end) pages.

Definition startItem (currentPage itemsPerPage : Z) : Z :=
  (currentPage - 1) * itemsPerPage + 1.

Definition endItem (currentPage itemsPerPage totalItems : Z) : Z :=
  Z.min (currentPage * itemsPerPage) totalItems.

End pagination.

(* ===================================================================== *)
(** ** Sequences of calls on one service *)
(* ===================================================================== *)

(** The service is created once ([service = InventoryService()] in the
    routes module) and every request calls one of its methods on the same
    session. A history of the service is the list of those calls. *)
Module service_calls.
Import models database inventory_service.

Inductive call :=
| AddItem (data : gmap string value)
| GetItems
| GetItem (item_id : string)
| UpdateItem (item_id : string) (data : gmap string value)
| DeleteItem (item_id : string).

(** The exception a call ends with, if it raises, and the session it leaves. *)
Definition raised {A : Type} (r : outcome A * Session) : option exn :=
  match r.1 with
  | Return _ => None
  | Raise e => Some e
  end.

Definition perform (c : call) (s : Session) : option exn * Session :=
  match c with
  | AddItem data => let r := add_item data s in (raised r, r.2)
  | GetItems => let r := get_items s in (raised r, r.2)
  | GetItem item_id => let r := get_item item_id s in (raised r, r.2)
  | UpdateItem item_id data => let r := update_item item_id data s in (raised r, r.2)
  | DeleteItem item_id => let r := delete_item item_id s in (raised r, r.2)
  end.

Definition run (calls : list call) (s : Session) : Session :=
  foldl (λ s c, (perform c s).2) s calls.


End service_calls.

(* ===================================================================== *)
(** ** App.tsx: the product container *)
(* ===================================================================== *)

Module App.

(** [interface Product]. The numbers are the integers of the data model;
    a price is a rational. *)
Record Product := {
  id : string;
  name : string;
  category : string;
  quantity : Z;
  unit : string;
  reorderLevel : Z;
  expirationDate : string;
  batchNumber : string;
  supplier : string;
  price : Q;
  sku : string
}.

(** [Omit<Product, 'id'>] *)
Module Omit.
Record Product := {
  name : string;
  category : string;
  quantity : Z;
  unit : string;
  reorderLevel : Z;
  expirationDate : string;
  batchNumber : string;
  supplier : string;
  price : Q;
  sku : string
}.
End Omit.

Inductive view := dashboard | inventory | purchase_orders | damaged_returns | settings.

(** The component's state hooks. *)
Record State := {
  products : list Product;
  currentView : view;
  isAddModalOpen : bool
}.

Definition initialProducts : list Product := [].

Definition initialState : State :=
  {| products := initialProducts; currentView := dashboard; isAddModalOpen := false |}.

Definition setProducts (l : list Product) (st : State) : State :=
  {| products := l; currentView := currentView st; isAddModalOpen := isAddModalOpen st |}.

Definition setIsAddModalOpen (b : bool) (st : State) : State :=
  {| products := products st; currentView := currentView st; isAddModalOpen := b |}.

(** [handleAddProduct]; [Date_now] is what [Date.now()] gives at the call. *)
Definition handleAddProduct (Date_now : Z) (product : Omit.Product) (st : State) : State :=
  let newProduct : Product :=
    {| id := pretty Date_now;
       name := Omit.name product;
       category := Omit.category product;
       quantity := Omit.quantity product;
       unit := Omit.unit product;
       reorderLevel := Omit.reorderLevel product;
       expirationDate := Omit.expirationDate product;
       batchNumber := Omit.batchNumber product;
       supplier := Omit.supplier product;
       price := Omit.price product;
       sku := Omit.sku product |} in
  setIsAddModalOpen false (setProducts (products st ++ [newProduct]) st).

Definition handleDeleteProduct (id' : string) (st : State) : State :=
  setProducts (filter (λ p, id p ≠ id') (products st)) st.

Definition handleUpdateProduct (updatedProduct : Product) (st : State) : State :=
  setProducts
    ((λ p, if decide (id p = id updatedProduct) then updatedProduct else p)
       <$> products st) st.

End App.

(** The delete handler the delete documentation gives as the replacement of
    the one in App.tsx: it awaits the DELETE request and filters the list
    only when [response.ok]. *)
Module App_documented.
Import App.

(** How the awaited [fetch] ends: a response with its [ok] flag, or a
    rejection (network error). *)
Inductive fetched :=
| Response (ok : bool)
| Rejected.

Definition handleDeleteProduct (outcome : fetched) (id' : string) (st : State) : State :=
  match outcome with
  | Response true => setProducts (filter (λ p, id p ≠ id') (products st)) st
  | Response false => st
  | Rejected => st
  end.

End App_documented.

(* ===================================================================== *)
(** ** components/Dashboard.tsx: derived metrics *)
(* ===================================================================== *)

Module Dashboard.
Import App.

Definition lowStock (p : Product) : bool := bool_decide (quantity p ≤ reorderLevel p)%Z.

Definition lowStockItems (products : list Product) : list Product :=
  filter (λ p, lowStock p = true) products.

Section expiring.

(** [new Date(s).getTime()]: milliseconds since the epoch, [None] for the
    NaN of an invalid date. The parser is the engine's. *)
Variable getTime : string → option Z.

(** [today.getTime()] *)
Variable today : Z.

(** [Math.floor((expirationDate.getTime() - today.getTime()) / (1000 * 60 *
    60 * 24))]. Both times are integers; the quotient of the engine's
    doubles and its floor agree with the integer quotient for any two dates
    less than 2^26 days apart. *)
Definition daysUntilExpiration (p : Product) : option Z :=
  (λ t, (t - today) `div` (1000 * 60 * 60 * 24)) <$> getTime (expirationDate p).

(** [daysUntilExpiration <= 90 && daysUntilExpiration > 0]; every comparison
    with NaN is false. *)
Definition isExpiringSoon (p : Product) : bool :=
  match daysUntilExpiration p with
  | Some d => bool_decide (d ≤ 90)%Z && bool_decide (d > 0)%Z
  | None => false
  end.

Definition expiringSoon (products : list Product) : list Product :=
  filter (λ p, isExpiringSoon p = true) products.

End expiring.

End Dashboard.

(* ===================================================================== *)
(** ** components/CategoryChart.tsx, LowStockAlert.tsx and InventoryList.tsx *)
(* ===================================================================== *)

Module CategoryChart.
Import App.


End CategoryChart.

Module LowStockAlert.
Import App.

(** What the alert panel renders: the line "All products are well
    stocked!" when [products.length === 0], one row per product otherwise. *)
Inductive panel :=
| WellStocked
| Alerts (products : list Product).

Definition LowStockAlert (products : list Product) : panel :=
  if bool_decide (length products = 0%nat) then WellStocked else Alerts products.

(** The dashboard renders [<LowStockAlert products={lowStockItems} />]. *)
Definition dashboard_panel (products : list Product) : panel :=
  LowStockAlert (Dashboard.lowStockItems products).

End LowStockAlert.

Module InventoryList.
Import App.

(** [Array.from(new Set(xs))]: the values in the order they first occur. *)
Definition from_Set (xs : list string) : list string :=
  foldl (λ seen x, if decide (x ∈ seen) then seen else seen ++ [x]) [] xs.

(** [['all', ...Array.from(new Set(products.map(p => p.category)))]] *)
Definition categories (products : list Product) : list string :=
  "all" :: from_Set (category <$> products).

(** [s.includes(sub)]: [sub] occurs in [s] as a run of code units. *)
Fixpoint includes (s sub : string) : bool :=
  if String.prefix sub s then true
  else match s with
       | EmptyString => false
       | String _ s' => includes s' sub
       end.

Section filter.

(** [String.prototype.toLowerCase], the engine's. *)
Variable toLowerCase : string → string.

Variable searchTerm : string.
Variable selectedCategory : string.

Definition matches (product : Product) : bool :=
  let matchesSearch :=
    includes (toLowerCase (name product)) (toLowerCase searchTerm)
    || includes (toLowerCase (sku product)) (toLowerCase searchTerm) in
  let matchesCategory :=
    bool_decide (selectedCategory = "all")
    || bool_decide (category product = selectedCategory) in
  matchesSearch && matchesCategory.

Definition filteredProducts (products : list Product) : list Product :=
  filter (λ product, matches product = true) products.

End filter.

End InventoryList.

(* ===================================================================== *)
(** ** Sample data: the product of the setup guide's test requests *)
(* ===================================================================== *)

Module samples.
Import models database.

(** The body of the guide's create request; 299.99 as a binary64. *)
Definition PROD001 : gmap string value :=
  list_to_map [
    ("id", VStr "PROD001");
    ("name", VStr "Test Product");
    ("category", VStr "Electronics");
    ("quantity", VInt 100);
    ("unit", VInt 1);
    ("expirationDate", VStr "2025-12-31");
    ("supplier", VStr "ACME Corp");
    ("price", VFloat 4643985096083075236);
    ("sku", VStr "SKU-001")
  ].

Definition PROD001_row : Product :=
  {| id := VStr "PROD001"; name := VStr "Test Product";
     category := VStr "Electronics"; quantity := VInt 100; unit := VInt 1;
     expirationDate := VStr "2025-12-31"; supplier := VStr "ACME Corp";
     price := VFloat 4643985096083075236; sku := VStr "SKU-001" |}.

Definition PROD002_row : Product :=
  {| id := VStr "PROD002"; name := VStr "Other Product";
     category := VStr "Vitamins"; quantity := VInt 7; unit := VInt 1;
     expirationDate := VStr "2026-06-30"; supplier := VStr "ACME Corp";
     price := VFloat 4617315517961601024; sku := VStr "SKU-002" |}.

(** A service that has just been started on an empty table. *)
Definition empty_session : Session :=
  {| rows := []; work := []; inactive := false |}.

(** The session once PROD001 has been created. *)
Definition one_row : Session :=
  {| rows := [PROD001_row]; work := []; inactive := false |}.

Definition two_rows : Session :=
  {| rows := [PROD001_row; PROD002_row]; work := []; inactive := false |}.

(** Products of the client's list. *)
Definition vitamin_c : App.Product :=
  {| App.id := "1001"; App.name := "Vitamin C 1000mg"; App.category := "Vitamins";
     App.quantity := 150; App.unit := "bottles"; App.reorderLevel := 30;
     App.expirationDate := "2025-12-31"; App.batchNumber := "VC2024-001";
     App.supplier := "Health Plus Inc."; App.price := (2499 # 100)%Q;
     App.sku := "VIT-C-1000" |}.

Definition omega_3 : App.Product :=
  {| App.id := "1002"; App.name := "Omega 3"; App.category := "Essential Fatty Acids";
     App.quantity := 20; App.unit := "bottles"; App.reorderLevel := 20;
     App.expirationDate := "2026-04-01"; App.batchNumber := "OM2025-007";
     App.supplier := "Health Plus Inc."; App.price := (1850 # 100)%Q;
     App.sku := "OMG-3" |}.

(** What the add form submits, and the product it becomes under an id. *)
Definition new_zinc : App.Omit.Product :=
  {| App.Omit.name := "Zinc 50mg"; App.Omit.category := "Minerals";
     App.Omit.quantity := 40; App.Omit.unit := "bottles"; App.Omit.reorderLevel := 10;
     App.Omit.expirationDate := "2026-04-02"; App.Omit.batchNumber := "ZN2025-001";
     App.Omit.supplier := "Mineral Works"; App.Omit.price := (999 # 100)%Q;
     App.Omit.sku := "ZN-50" |}.

Definition zinc (id' : string) : App.Product :=
  {| App.id := id'; App.name := "Zinc 50mg"; App.category := "Minerals";
     App.quantity := 40; App.unit := "bottles"; App.reorderLevel := 10;
     App.expirationDate := "2026-04-02"; App.batchNumber := "ZN2025-001";
     App.supplier := "Mineral Works"; App.price := (999 # 100)%Q;
     App.sku := "ZN-50" |}.

Definition expiring (date : string) : App.Product :=
  {| App.id := "1001"; App.name := "Vitamin C 1000mg"; App.category := "Vitamins";
     App.quantity := 150; App.unit := "bottles"; App.reorderLevel := 30;
     App.expirationDate := date; App.batchNumber := "VC2024-001";
     App.supplier := "Health Plus Inc."; App.price := (2499 # 100)%Q;
     App.sku := "VIT-C-1000" |}.

(** The times of a few date-only strings (midnight UTC, in milliseconds);
    any other string stands for an invalid date here. *)
Definition getTime (s : string) : option Z :=
  if decide (s = "2025-12-31") then Some 1767139200000
  else if decide (s = "2026-01-01") then Some 1767225600000
  else if decide (s = "2026-01-02") then Some 1767312000000
  else if decide (s = "2026-04-01") then Some 1775001600000
  else if decide (s = "2026-04-02") then Some 1775088000000
  else None.

(** 2026-01-01T00:00:00Z *)
Definition new_year_2026 : Z := 1767225600000.

End samples.

(* ===================================================================== *)
(** ** Attribute access on the model *)
(* ===================================================================== *)

Module models_facts.
Import models.

Lemma attribute_named_Some key a :
  attribute_named key = Some a ↔ attribute_name a = key.
Proof.
  split.
  - intros H. apply find_some in H as [_ H]. by apply bool_decide_eq_true in H.
  - intros <-. by destruct a.
Qed.

Lemma attribute_named_name a : attribute_named (attribute_name a) = Some a.
Proof. by apply attribute_named_Some. Qed.



Lemma hasattr_name a : hasattr (attribute_name a) = true.
Proof. unfold hasattr. by rewrite attribute_named_name. Qed.

Lemma attr_get_set p a v b :
  attr_get (attr_set p a v) b = if decide (b = a) then v else attr_get p b.
Proof. by destruct a, b. Qed.

Lemma getattr_name p a : getattr p (attribute_name a) = Some (attr_get p a).
Proof. unfold getattr. by rewrite attribute_named_name. Qed.


End models_facts.

(* ===================================================================== *)
(** ** The service: serialising and filling instances *)
(* ===================================================================== *)

Module inventory_service_facts.
Import models database inventory_service models_facts.


(** What the update loop leaves in each attribute: the payload's value
    where the payload has the key, the previous value elsewhere. *)
Lemma update_attributes_get product data a :
  attr_get (update_attributes product data) a =
    default (attr_get product a) (data !! attribute_name a).
Proof.
  unfold update_attributes.
  apply (map_fold_weak_ind
    (λ r (m : gmap string value),
       attr_get r a = default (attr_get product a) (m !! attribute_name a))).
  - by rewrite lookup_empty.
  - intros key v m r Hm IH.
    rewrite lookup_insert. destruct (hasattr key) eqn:Hk.
    + unfold setattr. unfold hasattr in Hk.
      destruct (attribute_named key) as [b|] eqn:Hb; [|done].
      apply attribute_named_Some in Hb as <-.
      rewrite attr_get_set. destruct (decide (a = b)) as [->|Hab].
      * by rewrite decide_True.
      * rewrite decide_False; [done|]. intros Heq. apply Hab.
        assert (attribute_named (attribute_name a) = attribute_named (attribute_name b))
          as Hn by (by rewrite Heq).
        rewrite !attribute_named_name in Hn. congruence.
    + rewrite decide_False; [done|]. intros ->. by rewrite hasattr_name in Hk.
Qed.


(** The constructor raises exactly when some keyword is no attribute, and
    otherwise builds the instance the update loop builds from a blank one. *)
Lemma Product_init_ok data :
  map_Forall (λ key _, hasattr key = true) data →
  Product_init data = Return (update_attributes blank data).
Proof.
  unfold Product_init, update_attributes.
  revert data. apply (map_Forall_ind (λ key _, hasattr key = true)
    (λ data, map_fold _ (Return blank) data = Return (map_fold _ blank data))).
  - by rewrite !map_fold_empty.
  - intros m key v Hm Hk Hall IH.
    rewrite (map_fold_insert_L _ _ key v m); [| |done].
    + rewrite IH. rewrite Hk.
      rewrite (map_fold_insert_L _ _ key v m); [by rewrite Hk| |done].
      intros j1 j2 z1 z2 y Hne _ _.
      unfold setattr.
      destruct (hasattr j1), (hasattr j2); try done.
      destruct (attribute_named j1) as [b1|] eqn:H1,
               (attribute_named j2) as [b2|] eqn:H2; try done.
      apply attribute_named_Some in H1, H2. subst.
      destruct b1, b2; try done.
    + intros j1 j2 z1 z2 y Hne _ _.
      destruct y as [p|e]; [|done].
      unfold setattr.
      destruct (hasattr j1) eqn:E1, (hasattr j2) eqn:E2; try done; rewrite ?E1, ?E2; try done.
      destruct (attribute_named j1) as [b1|] eqn:H1,
               (attribute_named j2) as [b2|] eqn:H2; try done.
      apply attribute_named_Some in H1, H2. subst.
      destruct b1, b2; try done.
Qed.

Lemma Product_init_bad data key :
  is_Some (data !! key) → hasattr key = false →
  Product_init data = Raise TypeError.
Proof.
  intros Hin Hk. unfold Product_init.
  cut (∀ m : gmap string value,
         (is_Some (m !! key) →
          map_fold (λ key v acc,
            match acc with
            | Return p => if hasattr key then Return (setattr p key v) else Raise TypeError
            | Raise e => Raise e
            end) (Return blank) m = Raise TypeError)
         ∧ (∀ e, map_fold (λ key v acc,
            match acc with
            | Return p => if hasattr key then Return (setattr p key v) else Raise TypeError
            | Raise e => Raise e
            end) (Return blank) m = Raise e → e = TypeError)).
  { intros H. by apply H. }
  intros m. apply (map_fold_weak_ind (λ r (m : gmap string value),
      (is_Some (m !! key) → r = Raise TypeError) ∧ (∀ e, r = Raise e → e = TypeError))).
  - split; [rewrite lookup_empty; by intros [? ?]|done].
  - intros j v m' r Hm' [IH1 IH2]. split.
    + rewrite lookup_insert. case_decide as Hj.
      * subst j. intros _. destruct r as [p|e]; [by rewrite Hk|].
        by rewrite (IH2 e).
      * intros Hs. by rewrite (IH1 Hs).
    + intros e. destruct r as [p|e']; [destruct (hasattr j); congruence|].
      intros [= <-]. by apply IH2.
Qed.


End inventory_service_facts.

(* ===================================================================== *)
(** ** The session: rows under a primary key *)
(* ===================================================================== *)

Module database_facts.
Import models database.


Lemma pk_taken_find rs pk :
  pk_taken rs pk = false ↔ find (has_key pk) rs = None.
Proof.
  unfold pk_taken, has_key. induction rs as [|r rs IH]; simpl; [done|].
  destruct (bool_decide (id r = pk)); simpl; [split; congruence|done].
Qed.

Lemma pk_taken_find_Some rs pk :
  pk_taken rs pk = true ↔ is_Some (find (has_key pk) rs).
Proof.
  destruct (pk_taken rs pk) eqn:Ht.
  - split; [intros _|done]. destruct (find (has_key pk) rs) eqn:Hf; [eauto|].
    apply pk_taken_find in Hf. congruence.
  - apply pk_taken_find in Ht. rewrite Ht. split; [done|]. by intros [? ?].
Qed.

Lemma find_has_key rs pk p : find (has_key pk) rs = Some p → id p = pk.
Proof.
  intros H. apply find_some in H as [_ H]. by apply bool_decide_eq_true in H.
Qed.

Lemma find_remove_row_eq rs pk : find (has_key pk) (remove_row pk rs) = None.
Proof.
  unfold remove_row, has_key. induction rs as [|r rs IH]; [done|].
  rewrite filter_cons. case_decide as Hr; [|done].
  simpl. by rewrite bool_decide_eq_false_2.
Qed.

Lemma find_remove_row_ne rs pk pk' :
  pk' ≠ pk → find (has_key pk') (remove_row pk rs) = find (has_key pk') rs.
Proof.
  intros Hne. unfold remove_row, has_key. induction rs as [|r rs IH]; [done|].
  rewrite filter_cons. case_decide as Hr; simpl.
  - by rewrite IH.
  - rewrite bool_decide_eq_false_2; [done|]. intros Hk. apply Hne.
    destruct (decide (id r = pk)); [congruence|contradiction].
Qed.



End database_facts.

(* ===================================================================== *)
(** ** The service: create, read, update, delete *)
(* ===================================================================== *)

Module inventory_service_spec.
Import models database inventory_service.
Import models_facts database_facts inventory_service_facts.

Lemma get_item_idle s i :
  inactive s = false →
  get_item i s = (Return (to_dict <$> find (has_key (VStr i)) (rows s)), s).
Proof.
  intros Hs. unfold get_item, mbind, M_bind, query_first. rewrite Hs.
  by destruct (find _ _).
Qed.

(** The instance built from a payload carries the payload's id. *)
Lemma init_id data v :
  data !! "id" = Some v → id (update_attributes blank data) = v.
Proof.
  intros Hd. change (attr_get (update_attributes blank data) a_id = v).
  rewrite update_attributes_get. simpl. by rewrite Hd.
Qed.




Lemma delete_item_present s i p :
  idle s → find (has_key (VStr i)) (rows s) = Some p →
  delete_item i s =
    (Return (Message "Item deleted"),
     {| rows := remove_row (VStr i) (rows s); work := []; inactive := false |}).
Proof.
  intros [Hw Hi] Hf. unfold delete_item, mbind, M_bind, query_first.
  rewrite Hi, Hf. unfold delete, commit, mret, M_ret. simpl.
  rewrite Hi, Hw. simpl. by rewrite (find_has_key _ _ _ Hf).
Qed.

Lemma delete_item_absent s i :
  inactive s = false → find (has_key (VStr i)) (rows s) = None →
  delete_item i s = (Return (Message "Item not found"), s).
Proof.
  intros Hi Hf. unfold delete_item, mbind, M_bind, query_first.
  by rewrite Hi, Hf.
Qed.

(** C5. delete_item removes the row under the id and reports "Item
    deleted" when there is one, and reports "Item not found", changing
    nothing, when there is none; neither raises. After a delete, get_item
    under the id finds nothing and a second delete reports "Item not
    found"; rows under other ids are as before. *)
Theorem delete_item_spec (s : Session) (i : string) :
  idle s →
  (pk_taken (rows s) (VStr i) = true →
   ∃ s', delete_item i s = (Return (Message "Item deleted"), s')
       ∧ rows s' = remove_row (VStr i) (rows s)
       ∧ idle s'
       ∧ get_item i s' = (Return None, s')
       ∧ delete_item i s' = (Return (Message "Item not found"), s')
       ∧ ∀ j, j ≠ i → get_item j s' = (fst (get_item j s), s'))
  ∧ (pk_taken (rows s) (VStr i) = false →
     delete_item i s = (Return (Message "Item not found"), s)
     ∧ get_item i s = (Return None, s)).
Proof.
  intros Hidle. split.
  - intros Ht. apply pk_taken_find_Some in Ht as [p Hp].
    eexists. split; [by apply (delete_item_present s i p)|].
    split; [done|]. split; [done|].
    split; [|split].
    + rewrite get_item_idle by done. simpl. by rewrite find_remove_row_eq.
    + apply delete_item_absent; [done|]. simpl. apply find_remove_row_eq.
    + intros j Hj. rewrite !get_item_idle by (done || apply Hidle). simpl.
      rewrite find_remove_row_ne; [done|]. congruence.
  - intros Ht. apply pk_taken_find in Ht. destruct Hidle as [_ Hi]. split.
    + by apply delete_item_absent.
    + rewrite get_item_idle by done. by rewrite Ht.
Qed.

(** C5 on the table that holds PROD001: deleting it, and deleting an id
    the table has never held. *)
Lemma delete_item_spec_witness :
  (∃ s', delete_item "PROD001" samples.one_row = (Return (Message "Item deleted"), s')
       ∧ rows s' = remove_row (VStr "PROD001") (rows samples.one_row)
       ∧ idle s'
       ∧ get_item "PROD001" s' = (Return None, s')
       ∧ delete_item "PROD001" s' = (Return (Message "Item not found"), s')
       ∧ ∀ j, j ≠ "PROD001" → get_item j s' = (fst (get_item j samples.one_row), s'))
  ∧ delete_item "PROD009" samples.one_row
      = (Return (Message "Item not found"), samples.one_row).
Proof.
  split.
  - apply (delete_item_spec samples.one_row "PROD001"); [split; reflexivity | reflexivity].
  - apply (delete_item_spec samples.one_row "PROD009"); [split; reflexivity | reflexivity].
Defined.





(** The update loop has no guard on the key [id]: a payload that carries
    an id not yet in the table moves the row to that id. *)
Lemma update_item_rekey s i j product :
  idle s → find (has_key (VStr i)) (rows s) = Some product →
  pk_taken (rows s) (VStr j) = false →
  update_item i {["id" := VStr j]} s =
    (Return (MessageItem "Item updated" (to_dict (attr_set product a_id (VStr j)))),
     {| rows := replace_row (VStr i) (attr_set product a_id (VStr j)) (rows s);
        work := []; inactive := false |}).
Proof.
  intros [Hw Hi] Hf Hfree.
  assert (update_attributes product {["id" := VStr j]} = attr_set product a_id (VStr j))
    as Hup.
  { unfold update_attributes. by rewrite map_fold_singleton. }
  unfold update_item, mbind, M_bind, query_first.
  rewrite Hi, Hf. unfold modified, commit, mret, M_ret. simpl.
  rewrite Hi, Hw, Hup. simpl. rewrite (find_has_key _ _ _ Hf).
  case_decide as Hij; [done|]. by rewrite Hfree.
Qed.

(** ... and a payload that carries the id of another row makes the commit
    fail: the exception reaches the caller and the session stays inactive. *)
Lemma update_item_rekey_collision s i j product :
  idle s → find (has_key (VStr i)) (rows s) = Some product →
  i ≠ j → pk_taken (rows s) (VStr j) = true →
  update_item i {["id" := VStr j]} s =
    (Raise IntegrityError, {| rows := rows s; work := []; inactive := true |}).
Proof.
  intros [Hw Hi] Hf Hij Htaken.
  assert (update_attributes product {["id" := VStr j]} = attr_set product a_id (VStr j))
    as Hup.
  { unfold update_attributes. by rewrite map_fold_singleton. }
  unfold update_item, mbind, M_bind, query_first.
  rewrite Hi, Hf. unfold modified, commit, mret, M_ret. simpl.
  rewrite Hi, Hw, Hup. simpl. rewrite (find_has_key _ _ _ Hf).
  rewrite decide_False by congruence. by rewrite Htaken.
Qed.

(** C3. update_item on PROD001 with the payload [{id: PROD002}]: the call
    reports "Item updated", the stored row now carries the id PROD002, and
    nothing is found under PROD001 any more. *)
Theorem update_item_overwrites_id :
  let s' := {| rows := [attr_set samples.PROD001_row a_id (VStr "PROD002")];
               work := []; inactive := false |} in
  update_item "PROD001" {["id" := VStr "PROD002"]} samples.one_row
    = (Return (MessageItem "Item updated"
                 (<["id" := VStr "PROD002"]> samples.PROD001)), s')
  ∧ get_item "PROD001" s' = (Return None, s')
  ∧ get_item "PROD002" s'
      = (Return (Some (<["id" := VStr "PROD002"]> samples.PROD001)), s').
Proof. repeat split; vm_compute; exact eq_refl. Qed.

(** An id that is already in the table makes the commit of add_item fail;
    nothing catches the exception and nothing calls rollback(). *)
Lemma add_item_duplicate s data i :
  idle s →
  map_Forall (λ key _, hasattr key = true) data →
  data !! "id" = Some (VStr i) →
  pk_taken (rows s) (VStr i) = true →
  add_item data s =
    (Raise IntegrityError, {| rows := rows s; work := []; inactive := true |}).
Proof.
  intros [Hw Hi] Hkeys Hid Htaken.
  unfold add_item. rewrite (Product_init_ok _ Hkeys).
  unfold mbind, M_bind, add, commit, refresh, mret, M_ret. simpl.
  rewrite Hi, Hw. simpl. rewrite (init_id data (VStr i)) by done.
  rewrite decide_False by done. by rewrite Htaken.
Qed.

(** Once a flush has failed, every later call on the same session raises. *)
Lemma inactive_session_raises s :
  inactive s = true →
  (∀ i, get_item i s = (Raise PendingRollbackError, s))
  ∧ get_items s = (Raise PendingRollbackError, s)
  ∧ (∀ i data, update_item i data s = (Raise PendingRollbackError, s))
  ∧ (∀ i, delete_item i s = (Raise PendingRollbackError, s)).
Proof.
  intros Hi. repeat split; intros;
    unfold get_item, get_items, update_item, delete_item, mbind, M_bind,
      query_first, query_all; by rewrite Hi.
Qed.

(** C4. add_item with the payload of PROD001 on the table that already
    holds PROD001: the call raises IntegrityError to its caller, the stored
    row is as before, and the session is left inactive, so that the next
    get_item raises as well. *)
Theorem add_item_duplicate_raises :
  let s' := {| rows := [samples.PROD001_row]; work := []; inactive := true |} in
  add_item samples.PROD001 samples.one_row = (Raise IntegrityError, s')
  ∧ get_item "PROD001" s' = (Raise PendingRollbackError, s').
Proof. repeat split; vm_compute; exact eq_refl. Qed.

(** A payload with a key that names no column, such as the client's
    reorderLevel, is refused by the constructor before the session is
    touched. *)
Lemma add_item_unknown_key s data key :
  is_Some (data !! key) → hasattr key = false →
  add_item data s = (Raise TypeError, s).
Proof.
  intros Hin Hk. unfold add_item. by rewrite (Product_init_bad data key).
Qed.

Example add_item_reorderLevel :
  add_item (<["reorderLevel" := VInt 20]> samples.PROD001) samples.empty_session
    = (Raise TypeError, samples.empty_session).
Proof. vm_compute; exact eq_refl. Qed.

Example update_item_onto_taken_id :
  update_item "PROD001" {["id" := VStr "PROD002"]} samples.two_rows
    = (Raise IntegrityError,
       {| rows := rows samples.two_rows; work := []; inactive := true |}).
Proof. vm_compute; exact eq_refl. Qed.

(** The guide's test requests in a row on a fresh service: create, list,
    update the quantity, read, delete, read. *)
Example crud_scenario :
  ∃ s1 s2 s3,
    add_item samples.PROD001 samples.empty_session
      = (Return (MessageItem "Item added" samples.PROD001), s1)
    ∧ get_items s1 = (Return [samples.PROD001], s1)
    ∧ update_item "PROD001" {["quantity" := VInt 25]} s1
      = (Return (MessageItem "Item updated"
                   (<["quantity" := VInt 25]> samples.PROD001)), s2)
    ∧ get_item "PROD001" s2
      = (Return (Some (<["quantity" := VInt 25]> samples.PROD001)), s2)
    ∧ delete_item "PROD001" s2 = (Return (Message "Item deleted"), s3)
    ∧ get_item "PROD001" s3 = (Return None, s3)
    ∧ s3 = samples.empty_session.
Proof. do 3 eexists. repeat split; vm_compute; exact eq_refl. Qed.



Example guarded_update_item_keeps_id :
  inventory_service_guarded.update_item "PROD001" {["id" := VStr "PROD002"]}
      samples.one_row
    = (Return (MessageItem "Item updated" samples.PROD001), samples.one_row).
Proof. vm_compute; exact eq_refl. Qed.

(** *** The primary key stays unique *)








End inventory_service_spec.

(* ===================================================================== *)
(** ** The container's handlers *)
(* ===================================================================== *)

Module App_spec.
Import App.

(** C6. handleDeleteProduct is a function of the id and the list alone: it
    takes the entry out at once, with no request sent and no response
    awaited. With the product 1001 listed, the call leaves the list
    without it, whatever the backend would have answered. *)
Theorem handleDeleteProduct_removes_at_once :
  products (handleDeleteProduct "1001"
              (setProducts [samples.vitamin_c; samples.omega_3] initialState))
    = [samples.omega_3].
Proof. reflexivity. Qed.

Lemma handleDeleteProduct_absent id' st :
  Forall (λ p, id p ≠ id') (products (handleDeleteProduct id' st)).
Proof.
  unfold handleDeleteProduct. simpl. apply Forall_forall.
  intros p Hp. by apply list_elem_of_filter in Hp as [Hp _].
Qed.

(** The documented handler keeps the list when the request fails or is
    refused, and removes the entry on an ok response. *)
Lemma documented_delete_waits outcome id' st :
  outcome ≠ App_documented.Response true →
  App_documented.handleDeleteProduct outcome id' st = st.
Proof. by destruct outcome as [[]|]. Qed.

Lemma documented_delete_confirmed id' st :
  App_documented.handleDeleteProduct (App_documented.Response true) id' st
    = handleDeleteProduct id' st.
Proof. reflexivity. Qed.

(** C7. handleAddProduct gives the product the id [Date.now().toString()],
    appends it to the list and closes the modal; that is all it does. The
    new product is in the list for good: no request is sent and nothing
    ever takes the entry out again. *)
Theorem handleAddProduct_appends_only :
  handleAddProduct 1700000000000 samples.new_zinc
      (setIsAddModalOpen true (setProducts [samples.vitamin_c] initialState))
    = {| products := [samples.vitamin_c; samples.zinc "1700000000000"];
         currentView := dashboard;
         isAddModalOpen := false |}.
Proof. reflexivity. Qed.

Lemma handleAddProduct_products now product st :
  ∃ newProduct,
    products (handleAddProduct now product st) = products st ++ [newProduct]
    ∧ id newProduct = pretty now.
Proof. eexists. split; reflexivity. Qed.

Lemma handleUpdateProduct_lookup u st k :
  products (handleUpdateProduct u st) !! k =
    (λ p, if decide (id p = id u) then u else p) <$> (products st !! k).
Proof. unfold handleUpdateProduct. simpl. by rewrite list_lookup_fmap. Qed.

(** C10. handleUpdateProduct keeps the length of the list and the place of
    every entry: the entry at a position is the updated product where the
    entry there had its id, and the entry that was there otherwise. When no
    entry has the id, the state is exactly the one before. *)
Theorem handleUpdateProduct_spec (u : Product) (st : State) :
  length (products (handleUpdateProduct u st)) = length (products st)
  ∧ (∀ k, products (handleUpdateProduct u st) !! k =
            (λ p, if decide (id p = id u) then u else p) <$> (products st !! k))
  ∧ (∀ k p, products st !! k = Some p → id p ≠ id u →
            products (handleUpdateProduct u st) !! k = Some p)
  ∧ (Forall (λ p, id p ≠ id u) (products st) → handleUpdateProduct u st = st).
Proof.
  split; [|split; [|split]].
  - unfold handleUpdateProduct. simpl. by rewrite length_fmap.
  - apply handleUpdateProduct_lookup.
  - intros k p Hk Hne. rewrite handleUpdateProduct_lookup, Hk. simpl.
    by rewrite decide_False.
  - intros Hall. destruct st as [l v b]. unfold handleUpdateProduct, setProducts.
    simpl in *. f_equal.
    rewrite <- (list_fmap_id l) at 2. apply Forall_fmap_ext_1.
    eapply Forall_impl; [exact Hall|]. intros p Hp. simpl. by rewrite decide_False.
Qed.

(** C10 on a list of two products and an update whose id neither has. *)
Lemma handleUpdateProduct_spec_witness :
  let st := setProducts [samples.vitamin_c; samples.omega_3] initialState in
  let u := samples.zinc "1003" in
  length (products (handleUpdateProduct u st)) = length (products st)
  ∧ (∀ k, products (handleUpdateProduct u st) !! k =
            (λ p, if decide (id p = id u) then u else p) <$> (products st !! k))
  ∧ (∀ k p, products st !! k = Some p → id p ≠ id u →
            products (handleUpdateProduct u st) !! k = Some p)
  ∧ (Forall (λ p, id p ≠ id u) (products st) → handleUpdateProduct u st = st).
Proof.
  exact (handleUpdateProduct_spec (samples.zinc "1003")
           (setProducts [samples.vitamin_c; samples.omega_3] initialState)).
Defined.

Example handleUpdateProduct_replaces :
  products (handleUpdateProduct (samples.zinc "1002")
              (setProducts [samples.vitamin_c; samples.omega_3] initialState))
    = [samples.vitamin_c; samples.zinc "1002"].
Proof. reflexivity. Qed.

End App_spec.

(* ===================================================================== *)
(** ** The dashboard's predicates *)
(* ===================================================================== *)

Module Dashboard_spec.
Import App Dashboard.

(** C8. A product is low on stock exactly when its quantity is at most its
    reorder level: it is at quantity = reorderLevel, it is not at
    quantity = reorderLevel + 1, and lowStockItems keeps exactly the
    products of the list that are. *)
Theorem lowStock_spec (p : Product) :
  (lowStock p = true ↔ (quantity p ≤ reorderLevel p)%Z)
  ∧ (quantity p = reorderLevel p → lowStock p = true)
  ∧ (quantity p = (reorderLevel p + 1)%Z → lowStock p = false)
  ∧ (∀ products, p ∈ lowStockItems products ↔
                 p ∈ products ∧ (quantity p ≤ reorderLevel p)%Z).
Proof.
  unfold lowStock. split; [|split; [|split]].
  - apply bool_decide_eq_true.
  - intros H. apply bool_decide_eq_true. lia.
  - intros H. apply bool_decide_eq_false. lia.
  - intros l. unfold lowStockItems. rewrite list_elem_of_filter.
    unfold lowStock. rewrite bool_decide_eq_true. tauto.
Qed.

Section expiring.
Variable getTime : string → option Z.
Variable today : Z.

Lemma isExpiringSoon_days p :
  isExpiringSoon getTime today p = true ↔
  ∃ d, daysUntilExpiration getTime today p = Some d ∧ (0 < d ≤ 90)%Z.
Proof.
  unfold isExpiringSoon. destruct (daysUntilExpiration getTime today p) as [d|].
  - rewrite andb_true_iff, !bool_decide_eq_true. split.
    + intros [H1 H2]. exists d. split; [done|lia].
    + intros (d' & [= <-] & H). lia.
  - split; [done|]. by intros (d & ? & _).
Qed.

(** C9. A product is expiring soon exactly when its days until expiration
    are more than 0 and at most 90: at 90 days it is, at 91 days and at 0
    or fewer days it is not, and with an unreadable date it is not. In
    milliseconds: from one full day up to, and not including, 91 days
    ahead of now. expiringSoon keeps exactly those products of the list. *)
Theorem isExpiringSoon_spec (p : Product) :
  (isExpiringSoon getTime today p = true ↔
     ∃ d, daysUntilExpiration getTime today p = Some d ∧ (0 < d ≤ 90)%Z)
  ∧ (daysUntilExpiration getTime today p = Some 90%Z →
       isExpiringSoon getTime today p = true)
  ∧ (daysUntilExpiration getTime today p = Some 91%Z →
       isExpiringSoon getTime today p = false)
  ∧ (∀ d, daysUntilExpiration getTime today p = Some d → (d ≤ 0)%Z →
       isExpiringSoon getTime today p = false)
  ∧ (daysUntilExpiration getTime today p = None →
       isExpiringSoon getTime today p = false)
  ∧ (isExpiringSoon getTime today p = true ↔
     ∃ t, getTime (expirationDate p) = Some t
          ∧ (86400000 ≤ t - today < 91 * 86400000)%Z)
  ∧ (∀ products, p ∈ expiringSoon getTime today products ↔
       p ∈ products ∧ isExpiringSoon getTime today p = true).
Proof.
  split; [apply isExpiringSoon_days|].
  split; [intros H; unfold isExpiringSoon; by rewrite H|].
  split; [intros H; unfold isExpiringSoon; by rewrite H|].
  split.
  { intros d H Hd. unfold isExpiringSoon. rewrite H.
    apply andb_false_iff. right. apply bool_decide_eq_false. lia. }
  split; [intros H; unfold isExpiringSoon; by rewrite H|].
  split.
  - rewrite isExpiringSoon_days. unfold daysUntilExpiration.
    destruct (getTime (expirationDate p)) as [t|]; simpl.
    + change (1000 * 60 * 60 * 24)%Z with 86400000%Z. split.
      * intros (d & [= <-] & Hd). exists t. split; [done|].
        pose proof (Z.div_mod (t - today) 86400000 ltac:(lia)).
        pose proof (Z.mod_pos_bound (t - today) 86400000 ltac:(lia)). lia.
      * intros (t' & [= <-] & Ht). eexists. split; [done|].
        pose proof (Z.div_mod (t - today) 86400000 ltac:(lia)).
        pose proof (Z.mod_pos_bound (t - today) 86400000 ltac:(lia)). lia.
    + split; intros (? & ? & _); congruence.
  - intros l. unfold expiringSoon. rewrite list_elem_of_filter. tauto.
Qed.

End expiring.

(** C9 at the turn of the year 2026, with the dates of the samples. *)
Example expiring_90_days :
  daysUntilExpiration samples.getTime samples.new_year_2026 (samples.expiring "2026-04-01")
    = Some 90%Z
  ∧ isExpiringSoon samples.getTime samples.new_year_2026 (samples.expiring "2026-04-01")
    = true.
Proof. split; reflexivity. Qed.

Example expiring_91_days :
  daysUntilExpiration samples.getTime samples.new_year_2026 (samples.expiring "2026-04-02")
    = Some 91%Z
  ∧ isExpiringSoon samples.getTime samples.new_year_2026 (samples.expiring "2026-04-02")
    = false.
Proof. split; reflexivity. Qed.

Example expired_yesterday :
  daysUntilExpiration samples.getTime samples.new_year_2026 (samples.expiring "2025-12-31")
    = Some (-1)%Z
  ∧ isExpiringSoon samples.getTime samples.new_year_2026 (samples.expiring "2025-12-31")
    = false.
Proof. split; reflexivity. Qed.

(** At noon, what expires at the next midnight is 0 days away and is not
    counted, and what expires 91 midnights ahead is 90 days away and is. *)
Example expiring_from_noon :
  isExpiringSoon samples.getTime (samples.new_year_2026 + 43200000)
    (samples.expiring "2026-01-02") = false
  ∧ isExpiringSoon samples.getTime (samples.new_year_2026 + 43200000)
    (samples.expiring "2026-04-02") = true.
Proof. split; reflexivity. Qed.

End Dashboard_spec.

(* ===================================================================== *)
(** ** The service over its histories *)
(* ===================================================================== *)

Module inventory_service_histories.
Import models database inventory_service service_calls.
Import models_facts database_facts inventory_service_facts inventory_service_spec.









Lemma run_app calls1 calls2 s : run (calls1 ++ calls2) s = run calls2 (run calls1 s).
Proof. unfold run. by rewrite foldl_app. Qed.





End inventory_service_histories.

(* ===================================================================== *)
(** ** The service: how its methods compose *)
(* ===================================================================== *)

Module inventory_service_ops.
Import models database inventory_service.
Import models_facts database_facts inventory_service_facts inventory_service_spec.






Lemma remove_row_absent rs pk : pk_taken rs pk = false → remove_row pk rs = rs.
Proof.
  unfold pk_taken, remove_row, has_key. induction rs as [|r rs IH]; [done|]. simpl.
  intros H. apply orb_false_iff in H as [Hr Hrs].
  apply bool_decide_eq_false in Hr.
  rewrite filter_cons, decide_True by done. by rewrite IH.
Qed.

















End inventory_service_ops.

(* ===================================================================== *)
(** ** The routes *)
(* ===================================================================== *)

Module inventory_routes_spec.
Import models database inventory_service.
Import models_facts database_facts inventory_service_facts inventory_service_spec.
Import inventory_service_ops.

(** X8. The DELETE view drops what the service answers: on an idle session
    it returns the body [{'message': 'Item deleted'}] with status 200 for
    every id, and when the id is not in the table nothing has changed. *)
Theorem delete_route_always_200 (s : Session) (i : string) :
  idle s →
  ∃ s', inventory_routes.delete_item i s
          = (Return (inventory_routes.BodyResponse (Message "Item deleted"), 200), s')
      ∧ rows s' = remove_row (VStr i) (rows s)
      ∧ (pk_taken (rows s) (VStr i) = false → s' = s).
Proof.
  intros Hidle. unfold inventory_routes.delete_item, mbind, M_bind.
  destruct (find (has_key (VStr i)) (rows s)) as [p|] eqn:Hf.
  - rewrite (delete_item_present s i p) by done. eexists. split; [done|].
    split; [done|]. intros Ht. apply pk_taken_find in Ht. congruence.
  - rewrite (delete_item_absent s i) by (done || apply Hidle). exists s.
    split; [done|]. split; [|done].
    symmetry. apply remove_row_absent. by apply pk_taken_find.
Qed.

Lemma delete_route_always_200_witness :
  ∃ s', inventory_routes.delete_item "PROD009" samples.one_row
          = (Return (inventory_routes.BodyResponse (Message "Item deleted"), 200), s')
      ∧ rows s' = remove_row (VStr "PROD009") (rows samples.one_row)
      ∧ (pk_taken (rows samples.one_row) (VStr "PROD009") = false → s' = samples.one_row).
Proof.
  apply (delete_route_always_200 samples.one_row "PROD009"). split; reflexivity.
Defined.

(** X9. The GET view of one item answers 200 with the item when the id is
    in the table. When it is not, the body it builds is a set literal,
    which jsonify refuses: the view raises TypeError, and on no session
    and for no id does it return a 404. *)
Theorem get_route_never_404 (s : Session) (i : string) :
  (∀ product, inactive s = false →
     find (has_key (VStr i)) (rows s) = Some product →
     inventory_routes.get_item i s
       = (Return (inventory_routes.BodyItem (to_dict product), 200), s))
  ∧ (inactive s = false →
     find (has_key (VStr i)) (rows s) = None →
     inventory_routes.get_item i s = (Raise TypeError, s))
  ∧ (∀ b s', inventory_routes.get_item i s ≠ (Return (b, 404), s')).
Proof.
  unfold inventory_routes.get_item, mbind, M_bind.
  split; [|split].
  - intros product Hi Hf. rewrite get_item_idle by done. by rewrite Hf.
  - intros Hi Hf. rewrite get_item_idle by done. by rewrite Hf.
  - intros b s'. destruct (get_item i s) as [[[item|]|e] s1];
      unfold inventory_routes.jsonify, raise, mret, M_ret; simpl; intros [=].
Qed.

End inventory_routes_spec.

(* ===================================================================== *)
(** ** The rewritten service *)
(* ===================================================================== *)

Module inventory_service_guarded_spec.
Import models database inventory_service.
Import models_facts database_facts inventory_service_facts inventory_service_spec.
Import inventory_service_ops.

Lemma commit_outcome s :
  (∃ s', commit s = (Return (), s') ∧ idle s')
  ∨ (∃ e s', commit s = (Raise e, s') ∧ rows s' = rows s).
Proof.
  unfold commit. destruct (inactive s) eqn:Hi; [right; by eexists _, _|].
  destruct (flush _ _); [left; by eexists|right; by eexists _, _].
Qed.

(** X10. No method of the rewritten service raises, whatever the session
    and the arguments; add_item, update_item and delete_item leave the
    session usable (any failed transaction rolled back). *)
Theorem guarded_service_never_raises (s : Session) :
  (∀ data, ∃ r s', inventory_service_guarded.add_item data s = (Return r, s') ∧ inactive s' = false)
  ∧ (∀ i data, ∃ r s', inventory_service_guarded.update_item i data s = (Return r, s') ∧ inactive s' = false)
  ∧ (∀ i, ∃ r s', inventory_service_guarded.delete_item i s = (Return r, s') ∧ inactive s' = false)
  ∧ (∀ i, ∃ r s', inventory_service_guarded.get_item i s = (Return r, s'))
  ∧ (∃ r s', inventory_service_guarded.get_items s = (Return r, s')).
Proof.
  split; [|split; [|split; [|split]]].
  - intros data. unfold inventory_service_guarded.add_item, try_except, mbind, M_bind, add.
    destruct (commit_outcome
      {| rows := rows s; work := work s ++ [Insert (inventory_service_guarded.Product_of data)];
         inactive := inactive s |}) as [(s1 & -> & [_ Hi])|(e & s1 & -> & _)].
    + unfold refresh. rewrite Hi. destruct (find _ _); by eexists _, _.
    + by eexists _, _.
  - intros i data. unfold inventory_service_guarded.update_item, try_except, mbind, M_bind, query_first.
    destruct (inactive s) eqn:Hi; [by eexists _, _|].
    destruct (find _ _) as [p|]; [|by eexists _, _].
    unfold modified.
    destruct (commit_outcome
      {| rows := rows s;
         work := work s ++ [Update (id p) (inventory_service_guarded.update_attributes p data)];
         inactive := inactive s |}) as [(s1 & -> & [_ Hi1])|(e & s1 & -> & _)];
      by eexists _, _.
  - intros i. unfold inventory_service_guarded.delete_item, try_except, mbind, M_bind, query_first.
    destruct (inactive s) eqn:Hi; [by eexists _, _|].
    destruct (find _ _) as [p|]; [|by eexists _, _].
    unfold delete.
    destruct (commit_outcome
      {| rows := rows s; work := work s ++ [Delete (id p)];
         inactive := inactive s |}) as [(s1 & -> & [_ Hi1])|(e & s1 & -> & _)];
      by eexists _, _.
  - intros i. unfold inventory_service_guarded.get_item, try_except, mbind, M_bind, query_first.
    destruct (inactive s); [by eexists _, _|]. destruct (find _ _); by eexists _, _.
  - unfold inventory_service_guarded.get_items, try_except, mbind, M_bind, query_all.
    destruct (inactive s); by eexists _, _.
Qed.








End inventory_service_guarded_spec.

(* ===================================================================== *)
(** ** The paginated listing *)
(* ===================================================================== *)

Module pagination_spec.
Import pagination.

Section get_items.
Context {Row Item : Type}.
Variable format : Row → Item.

Lemma get_items_items rows page per_page :
  (get_items format rows page per_page).1 =
    format <$> take (Z.to_nat (Z.min (Z.max 1 per_page) 100))
                 (drop (Z.to_nat ((Z.max 1 page - 1) * Z.min (Z.max 1 per_page) 100)) rows).
Proof. reflexivity. Qed.

Lemma total_pages_bounds (n pp : Z) :
  (1 ≤ pp → 0 ≤ n →
   let t := (n + pp - 1) `div` pp in (t - 1) * pp < n ≤ t * pp)%Z.
Proof.
  intros Hpp Hn t.
  pose proof (Z.div_mod (n + pp - 1) pp ltac:(lia)) as Hdm.
  pose proof (Z.mod_pos_bound (n + pp - 1) pp ltac:(lia)) as Hmb.
  fold t in Hdm. nia.
Qed.

(** X13. Whatever page and page size a request asks for (zero, negative or
    huge), the listing answers with a page number of at least 1, a page
    size between 1 and 100, and no more items than the page size; the
    count of items it reports is the number of rows. *)
Theorem get_items_bounds (rows : list Row) (page' per_page' : Z) :
  let r := get_items format rows page' per_page' in
  (1 ≤ page r.2)%Z
  ∧ (1 ≤ per_page r.2 ≤ 100)%Z
  ∧ (Z.of_nat (length r.1) ≤ per_page r.2)%Z
  ∧ total_items r.2 = Z.of_nat (length rows)
  ∧ ((1 ≤ page')%Z → page r.2 = page')
  ∧ ((1 ≤ per_page' ≤ 100)%Z → per_page r.2 = per_page').
Proof.
  intros r. unfold r. rewrite get_items_items. simpl.
  rewrite length_fmap, length_take.
  repeat split; lia.
Qed.

(** X14. The number of pages is the least number of pages of that size
    that holds every row: one page fewer would not hold them all. It is 0
    exactly when the table is empty. *)
Theorem get_items_total_pages (rows : list Row) (page' per_page' : Z) :
  let info := (get_items format rows page' per_page').2 in
  ((total_pages info - 1) * per_page info < total_items info
     ≤ total_pages info * per_page info)%Z
  ∧ (total_pages info = 0%Z ↔ rows = []).
Proof.
  intros info. unfold info. simpl.
  pose proof (total_pages_bounds (Z.of_nat (length rows)) (Z.min (Z.max 1 per_page') 100)
                ltac:(lia) ltac:(lia)) as Hb.
  simpl in Hb. split; [exact Hb|].
  split.
  - intros H0. rewrite H0 in Hb. destruct rows; [done|]. simpl in Hb. lia.
  - intros ->. simpl. apply Z.div_small. lia.
Qed.

Lemma concat_chunks {A} (l : list A) (m c : nat) :
  concat ((λ j, take m (drop (j * m) l)) <$> seq 0 c) = take (c * m) l.
Proof.
  induction c as [|c IH]; [done|].
  rewrite seq_S, fmap_app, concat_app, IH. simpl. rewrite app_nil_r.
  rewrite take_take_drop. f_equal. lia.
Qed.

(** X15. Walking the pages from 1 to the reported number of pages, with
    any page size, returns every row of the table exactly once and in the
    order of the table. *)
Theorem get_items_pages_cover (rows : list Row) (per_page' : Z) :
  let pages := total_pages (get_items format rows 1 per_page').2 in
  concat ((λ k, (get_items format rows k per_page').1) <$> seqZ 1 pages)
    = format <$> rows.
Proof.
  intros pages.
  set (pp := Z.min (Z.max 1 per_page') 100).
  assert (1 ≤ pp ≤ 100)%Z as Hpp by (unfold pp; lia).
  assert ((pages - 1) * pp < Z.of_nat (length rows) ≤ pages * pp)%Z as Hb.
  { apply (get_items_total_pages rows 1 per_page'). }
  assert (0 ≤ pages)%Z as Hpages by nia.
  transitivity (concat (fmap format <$>
    ((λ j, take (Z.to_nat pp) (drop (j * Z.to_nat pp) rows)) <$> seq 0 (Z.to_nat pages)))).
  - f_equal. unfold seqZ. rewrite <- !list_fmap_compose.
    apply list_fmap_ext. intros _ j _. cbv beta delta [compose].
    rewrite get_items_items. fold pp.
    replace (Z.max 1 (Z.of_nat j + 1) - 1)%Z with (Z.of_nat j) by lia.
    by rewrite Z2Nat.inj_mul, Nat2Z.id by lia.
  - transitivity (format <$> concat
      ((λ j, take (Z.to_nat pp) (drop (j * Z.to_nat pp) rows)) <$> seq 0 (Z.to_nat pages))).
    + generalize ((λ j, take (Z.to_nat pp) (drop (j * Z.to_nat pp) rows))
                    <$> seq 0 (Z.to_nat pages)).
      intros ls. induction ls as [|l ls IH]; [done|].
      csimpl. by rewrite fmap_app, IH.
    + rewrite concat_chunks. f_equal. apply take_ge. nia.
Qed.

Lemma length_items rows page' per_page' :
  let r := get_items format rows page' per_page' in
  Z.of_nat (length r.1)
    = Z.min (per_page r.2)
        (Z.max 0 (total_items r.2 - (page r.2 - 1) * per_page r.2)).
Proof.
  intros r. unfold r. rewrite get_items_items. simpl.
  rewrite length_fmap, length_take, length_drop.
  set (pp := Z.min (Z.max 1 per_page') 100). set (pg := Z.max 1 page').
  assert (1 ≤ pp)%Z by (unfold pp; lia). assert (1 ≤ pg)%Z by (unfold pg; lia).
  assert (0 ≤ (pg - 1) * pp)%Z by nia. lia.
Qed.

(** X16. The listing's navigation flags say what is there: has_prev holds
    exactly from page 2 on; has_next holds exactly when rows remain after
    this page, and then the page is full; the page is empty exactly when
    its number is beyond the last page. *)
Theorem get_items_navigation (rows : list Row) (page' per_page' : Z) :
  let r := get_items format rows page' per_page' in
  (has_prev r.2 = true ↔ (1 < page r.2)%Z)
  ∧ (has_next r.2 = true ↔ (page r.2 * per_page r.2 < total_items r.2)%Z)
  ∧ (has_next r.2 = true → Z.of_nat (length r.1) = per_page r.2)
  ∧ (r.1 = [] ↔ (total_pages r.2 < page r.2)%Z).
Proof.
  intros r.
  pose proof (length_items rows page' per_page') as Hlen. fold r in Hlen.
  pose proof (get_items_total_pages rows page' per_page') as [Hb _]. fold r in Hb.
  pose proof (get_items_bounds rows page' per_page') as (Hp & Hpp & _). fold r in Hp, Hpp.
  assert (has_next r.2 = bool_decide (page r.2 < total_pages r.2)%Z) as Hn by done.
  assert (has_prev r.2 = bool_decide (page r.2 > 1)%Z) as Hv by done.
  assert (0 ≤ total_items r.2)%Z as Hti by (simpl; lia).
  rewrite Hn, Hv, !bool_decide_eq_true.
  split; [lia|]. split; [|split].
  - split; intros; nia.
  - intros Hlt. rewrite Hlen. nia.
  - rewrite <- length_zero_iff_nil.
    split; intros Hz.
    + assert (Z.of_nat (length r.1) = 0%Z) as Hz' by lia. rewrite Hlen in Hz'. nia.
    + assert (Z.of_nat (length r.1) = 0%Z) as Hz'; [|lia]. rewrite Hlen. nia.
Qed.

(** X17. For a page the listing has, the line "Showing startItem to
    endItem of totalItems" of the pagination component spans exactly as
    many positions as the page has items. *)
Theorem showing_range_matches_items (rows : list Row) (page' per_page' : Z) :
  let r := get_items format rows page' per_page' in
  (page r.2 ≤ total_pages r.2)%Z →
  (endItem (page r.2) (per_page r.2) (total_items r.2)
     - startItem (page r.2) (per_page r.2) + 1)%Z
    = Z.of_nat (length r.1).
Proof.
  intros r Hin.
  pose proof (length_items rows page' per_page') as Hlen. fold r in Hlen.
  pose proof (get_items_total_pages rows page' per_page') as [Hb _]. fold r in Hb.
  pose proof (get_items_bounds rows page' per_page') as (Hp & Hpp & _). fold r in Hp, Hpp.
  rewrite Hlen. unfold endItem, startItem. nia.
Qed.

End get_items.

Lemma showing_range_matches_items_witness :
  let r := get_items (λ n : nat, n) (seq 1 45) 5 10 in
  (endItem (page r.2) (per_page r.2) (total_items r.2)
     - startItem (page r.2) (per_page r.2) + 1)%Z
    = Z.of_nat (length r.1).
Proof.
  apply (showing_range_matches_items (λ n : nat, n) (seq 1 45) 5 10).
  vm_compute. discriminate.
Defined.

Lemma numbers_app l1 l2 : numbers (l1 ++ l2) = numbers l1 ++ numbers l2.
Proof. unfold numbers. apply omap_app. Qed.

Lemma numbers_push_range lo hi : numbers (push_range lo hi) = seqZ lo (hi - lo + 1).
Proof.
  unfold numbers, push_range. generalize (seqZ lo (hi - lo + 1)).
  intros l. induction l as [|n l IH]; [done|]. csimpl. by rewrite IH.
Qed.

Lemma numbers_getPageNumbers cur total :
  numbers (getPageNumbers cur total) =
    if bool_decide (total ≤ 7)%Z then seqZ 1 total
    else 1%Z :: seqZ (Z.max 2 (cur - 1))
                 (Z.min (total - 1) (cur + 1) - Z.max 2 (cur - 1) + 1) ++ [total].
Proof.
  unfold getPageNumbers. case_bool_decide.
  - rewrite numbers_push_range. f_equal. lia.
  - rewrite !numbers_app, numbers_push_range.
    by repeat case_bool_decide.
Qed.

(** X18. The page buttons, for any current page and any number of pages:
    there are at most seven of them; the numbers shown lie between 1 and
    the number of pages and none is shown twice; with at least one page
    the first button is page 1 and the last is the last page; up to seven
    pages every page has its button; and the current page has a button
    whenever it is a page that exists. *)
Theorem getPageNumbers_spec (currentPage totalPages : Z) :
  let pages := getPageNumbers currentPage totalPages in
  (length pages ≤ 7)%nat
  ∧ NoDup (numbers pages)
  ∧ (∀ n, n ∈ numbers pages → (1 ≤ n ≤ totalPages)%Z)
  ∧ ((1 ≤ totalPages)%Z →
       head pages = Some (Number 1) ∧ last pages = Some (Number totalPages))
  ∧ ((totalPages ≤ 7)%Z → pages = Number <$> seqZ 1 totalPages)
  ∧ ((1 ≤ currentPage ≤ totalPages)%Z → Number currentPage ∈ pages).
Proof.
  intros pages.
  pose proof (numbers_getPageNumbers currentPage totalPages) as Hnum.
  fold pages in Hnum.
  set (lo := Z.max 2 (currentPage - 1)) in *.
  set (hi := Z.min (totalPages - 1) (currentPage + 1)) in *.
  split; [|split; [|split; [|split; [|split]]]].
  - unfold pages, getPageNumbers, push_range. case_bool_decide.
    + rewrite length_fmap, length_seqZ. lia.
    + rewrite !length_app, length_fmap, length_seqZ. fold lo hi.
      repeat case_bool_decide; simpl; lia.
  - rewrite Hnum. case_bool_decide; [apply NoDup_seqZ|].
    apply NoDup_cons. split.
    + rewrite elem_of_app, elem_of_seqZ, list_elem_of_singleton. lia.
    + apply NoDup_app. split; [apply NoDup_seqZ|]. split; [|apply NoDup_singleton].
      intros n. rewrite elem_of_seqZ, list_elem_of_singleton. lia.
  - intros n. rewrite Hnum. case_bool_decide.
    + rewrite elem_of_seqZ. lia.
    + rewrite elem_of_cons, elem_of_app, elem_of_seqZ, list_elem_of_singleton. lia.
  - intros Ht. unfold pages, getPageNumbers, push_range. case_bool_decide.
    + replace (totalPages - 1 + 1)%Z with totalPages by lia. split.
      * by rewrite (seqZ_cons 1 totalPages) by lia.
      * replace (seqZ 1 totalPages)
          with (seqZ 1 (Z.of_nat (S (Z.to_nat (totalPages - 1))))) by (f_equal; lia).
        rewrite seqZ_S, fmap_app, list_fmap_singleton, last_snoc. do 2 f_equal. lia.
    + split; [done|]. by rewrite !app_assoc, last_snoc.
  - intros Ht. unfold pages, getPageNumbers, push_range.
    rewrite bool_decide_eq_true_2 by done. do 2 f_equal. lia.
  - intros Hc. unfold pages, getPageNumbers, push_range. case_bool_decide.
    + apply list_elem_of_fmap_2, elem_of_seqZ. lia.
    + fold lo hi.
      destruct (decide (currentPage = 1)) as [->|H1].
      { rewrite elem_of_app. left. by apply list_elem_of_singleton. }
      destruct (decide (currentPage = totalPages)) as [->|H2].
      * rewrite !elem_of_app. do 4 right. by apply list_elem_of_singleton.
      * rewrite !elem_of_app. right. right. left.
        apply list_elem_of_fmap_2, elem_of_seqZ. lia.
Qed.

End pagination_spec.

(* ===================================================================== *)
(** ** The container's handlers, composed *)
(* ===================================================================== *)

Module App_more.
Import App.

Lemma filter_filter_comm {A} (P Q : A → Prop) `{!∀ x, Decision (P x)} `{!∀ x, Decision (Q x)}
    (l : list A) :
  filter P (filter Q l) = filter Q (filter P l).
Proof.
  induction l as [|x l IH]; [done|].
  rewrite !filter_cons.
  destruct (decide (Q x)), (decide (P x)); rewrite ?filter_cons;
    rewrite ?decide_True, ?decide_False by done; by rewrite IH.
Qed.

Lemma filter_all {A} (P : A → Prop) `{!∀ x, Decision (P x)} (l : list A) :
  Forall P l → filter P l = l.
Proof.
  induction 1 as [|x l Hx Hl IH]; [done|].
  by rewrite filter_cons, decide_True, IH.
Qed.

(** X19. handleDeleteProduct keeps exactly the products whose id differs
    from the given one, in their order, and leaves the view and the modal
    alone; deleting the same id again changes nothing, deletes of two ids
    give the same list in either order, and an id no product has leaves
    the state as it is. *)
Theorem handleDeleteProduct_spec (id' : string) (st : State) :
  (∀ p, p ∈ products (handleDeleteProduct id' st) ↔ p ∈ products st ∧ id p ≠ id')
  ∧ products (handleDeleteProduct id' st) `sublist_of` products st
  ∧ currentView (handleDeleteProduct id' st) = currentView st
  ∧ isAddModalOpen (handleDeleteProduct id' st) = isAddModalOpen st
  ∧ handleDeleteProduct id' (handleDeleteProduct id' st) = handleDeleteProduct id' st
  ∧ (∀ j, handleDeleteProduct j (handleDeleteProduct id' st)
          = handleDeleteProduct id' (handleDeleteProduct j st))
  ∧ (Forall (λ p, id p ≠ id') (products st) → handleDeleteProduct id' st = st).
Proof.
  unfold handleDeleteProduct, setProducts. simpl.
  split; [|split; [|split; [|split; [|split; [|split]]]]]; try done.
  - intros p. rewrite list_elem_of_filter. tauto.
  - apply sublist_filter.
  - f_equal. apply filter_all. apply Forall_forall. intros p Hp.
    by apply list_elem_of_filter in Hp as [Hp _].
  - intros j. f_equal. apply filter_filter_comm.
  - intros Hall. destruct st as [l v b]. simpl in *. f_equal. by apply filter_all.
Qed.

Lemma handleAddProduct_unfold now product st :
  products (handleAddProduct now product st)
    = products st
      ++ [{| id := pretty now;
             name := Omit.name product;
             category := Omit.category product;
             quantity := Omit.quantity product;
             unit := Omit.unit product;
             reorderLevel := Omit.reorderLevel product;
             expirationDate := Omit.expirationDate product;
             batchNumber := Omit.batchNumber product;
             supplier := Omit.supplier product;
             price := Omit.price product;
             sku := Omit.sku product |}].
Proof. reflexivity. Qed.

(** X20. The ids handleAddProduct assigns are the decimal strings of the
    clock. Two products added at different readings of the clock get
    different ids, and the ids of the list stay pairwise different as long
    as no listed id is the string of the reading. Two products added at
    the same reading share one id: the ids are then no longer pairwise
    different, one handleDeleteProduct of that id removes both products,
    and one handleUpdateProduct of that id overwrites both. *)
Theorem handleAddProduct_ids (now : Z) (a b : Omit.Product) (st : State) :
  (∀ now', now' ≠ now →
     NoDup (id <$> products st) →
     pretty now ∉ id <$> products st →
     pretty now' ∉ id <$> products st →
     NoDup (id <$> products (handleAddProduct now' b (handleAddProduct now a st))))
  ∧ ¬ NoDup (id <$> products (handleAddProduct now b (handleAddProduct now a st)))
  ∧ products (handleDeleteProduct (pretty now)
                (handleAddProduct now b (handleAddProduct now a st)))
      = products (handleDeleteProduct (pretty now) st)
  ∧ (∀ u, id u = pretty now →
       products (handleUpdateProduct u
                   (handleAddProduct now b (handleAddProduct now a st)))
         = products (handleUpdateProduct u st) ++ [u; u]).
Proof.
  split; [|split; [|split]].
  - intros now' Hne Hnd Hn Hn'.
    rewrite !handleAddProduct_unfold, !fmap_app. simpl.
    rewrite <- app_assoc. simpl.
    apply NoDup_app. split; [done|]. split.
    + intros x Hx Hin. apply elem_of_cons in Hin as [->|Hin]; [done|].
      apply list_elem_of_singleton in Hin as ->. done.
    + apply NoDup_cons. split; [|apply NoDup_singleton].
      intros Heq%list_elem_of_singleton. apply Hne. symmetry.
      by apply (inj pretty).
  - rewrite !handleAddProduct_unfold, !fmap_app. simpl.
    rewrite <- app_assoc. simpl. intros Hnd.
    apply NoDup_app in Hnd as (_ & _ & Hnd).
    apply NoDup_cons in Hnd as [Hnd _]. apply Hnd. by apply list_elem_of_singleton.
  - unfold handleDeleteProduct. simpl.
    rewrite !filter_app, !filter_cons, !filter_nil. simpl.
    rewrite !decide_False by (intros Hn; by apply Hn).
    by rewrite !app_nil_r.
  - intros u Hu. unfold handleUpdateProduct. simpl.
    rewrite !fmap_app, <- app_assoc. simpl. rewrite Hu.
    by rewrite !(decide_True (P := pretty now = pretty now)) by done.
Qed.

End App_more.

(* ===================================================================== *)
(** ** The category chart and the inventory list *)
(* ===================================================================== *)

Module components_spec.
Import App.

Lemma filter_none {A} (P : A → Prop) `{!∀ x, Decision (P x)} (l : list A) :
  (∀ x, x ∈ l → ¬ P x) → filter P l = [].
Proof.
  induction l as [|x l IH]; [done|]. intros Hno.
  rewrite filter_cons, decide_False by (apply Hno; by left).
  apply IH. intros y Hy. apply Hno. by right.
Qed.



(** X22. The dashboard's alert panel says "All products are well stocked!"
    exactly when every product has more in stock than its reorder level;
    otherwise it lists, in the order of the products, exactly those whose
    quantity is at or below their reorder level. *)
Theorem dashboard_panel_spec (products : list Product) :
  (LowStockAlert.dashboard_panel products = LowStockAlert.WellStocked
     ↔ Forall (λ p, (reorderLevel p < quantity p)%Z) products)
  ∧ (∀ shown, LowStockAlert.dashboard_panel products = LowStockAlert.Alerts shown →
       shown ≠ []
       ∧ shown = filter (λ p, (quantity p ≤ reorderLevel p)%Z) products).
Proof.
  unfold LowStockAlert.dashboard_panel, LowStockAlert.LowStockAlert,
    Dashboard.lowStockItems.
  assert (filter (λ p, Dashboard.lowStock p = true) products
          = filter (λ p, (quantity p ≤ reorderLevel p)%Z) products) as ->.
  { apply list_filter_iff. intros p. unfold Dashboard.lowStock.
    by rewrite bool_decide_eq_true. }
  split.
  - case_bool_decide as Hlen.
    + split; [intros _|done]. apply length_zero_iff_nil in Hlen.
      apply Forall_forall. intros p Hp.
      destruct (decide (quantity p ≤ reorderLevel p)%Z) as [Hle|]; [|lia].
      assert (p ∈ filter (λ p, (quantity p ≤ reorderLevel p)%Z) products) as Hin
        by (apply list_elem_of_filter; done).
      rewrite Hlen in Hin. by apply elem_of_nil in Hin.
    + split; [done|]. intros Hall. exfalso. apply Hlen.
      rewrite (filter_none (λ p, (quantity p ≤ reorderLevel p)%Z) products); [done|].
      intros p Hp. rewrite Forall_forall in Hall. specialize (Hall p Hp). lia.
  - intros shown. case_bool_decide as Hlen; [done|]. intros [= <-].
    split; [|done]. intros Hnil. apply Hlen. by rewrite Hnil.
Qed.

Lemma from_Set_foldl (xs seen : list string) :
  NoDup seen →
  NoDup (foldl (λ seen x, if decide (x ∈ seen) then seen else seen ++ [x]) seen xs)
  ∧ ∀ c, c ∈ foldl (λ seen x, if decide (x ∈ seen) then seen else seen ++ [x]) seen xs
         ↔ c ∈ seen ∨ c ∈ xs.
Proof.
  revert seen. induction xs as [|x xs IH]; intros seen Hnd; simpl.
  - split; [done|]. intros c. rewrite elem_of_nil. tauto.
  - case_decide as Hx.
    + destruct (IH seen Hnd) as [H1 H2]. split; [done|].
      intros c. rewrite H2, elem_of_cons. split; [tauto|].
      intros [?|[->|?]]; auto.
    + assert (NoDup (seen ++ [x])) as Hnd'.
      { apply NoDup_app. split; [done|]. split; [|apply NoDup_singleton].
        intros y Hy ->%list_elem_of_singleton. done. }
      destruct (IH _ Hnd') as [H1 H2]. split; [done|].
      intros c. rewrite H2, elem_of_app, list_elem_of_singleton, elem_of_cons. tauto.
Qed.

(** X23. The category filter offers "all" first and then every category
    some product has, each once. The options are pairwise different
    unless a product's category is itself named "all", which then appears
    a second time. *)
Theorem categories_spec (products : list Product) :
  head (InventoryList.categories products) = Some "all"
  ∧ (∀ c, c ∈ InventoryList.categories products
          ↔ c = "all" ∨ c ∈ category <$> products)
  ∧ NoDup (tail (InventoryList.categories products))
  ∧ (NoDup (InventoryList.categories products) ↔ "all" ∉ category <$> products).
Proof.
  unfold InventoryList.categories, InventoryList.from_Set.
  destruct (from_Set_foldl (category <$> products) [] (NoDup_nil_2)) as [Hnd Hin].
  split; [done|]. split; [|split; [done|]].
  - intros c. rewrite elem_of_cons, Hin, elem_of_nil. tauto.
  - rewrite NoDup_cons, Hin, elem_of_nil. tauto.
Qed.

Lemma includes_empty s : InventoryList.includes s "" = true.
Proof. by destruct s. Qed.

Section filter.
Variable toLowerCase : string → string.

(** X24. The inventory list shows a sublist of the products (their order
    kept); with a category selected, only products of that category; and
    with an empty search box, every product of the selected category, or
    every product when "all" is selected. *)
Theorem filteredProducts_spec (searchTerm selectedCategory : string)
    (products : list Product) :
  InventoryList.filteredProducts toLowerCase searchTerm selectedCategory products
    `sublist_of` products
  ∧ (selectedCategory ≠ "all" →
     Forall (λ p, category p = selectedCategory)
       (InventoryList.filteredProducts toLowerCase searchTerm selectedCategory products))
  ∧ (toLowerCase searchTerm = "" →
     InventoryList.filteredProducts toLowerCase searchTerm selectedCategory products
       = filter (λ p, selectedCategory = "all" ∨ category p = selectedCategory) products)
  ∧ (toLowerCase searchTerm = "" → selectedCategory = "all" →
     InventoryList.filteredProducts toLowerCase searchTerm selectedCategory products
       = products).
Proof.
  unfold InventoryList.filteredProducts.
  assert (toLowerCase searchTerm = "" →
    filter (λ p, InventoryList.matches toLowerCase searchTerm selectedCategory p = true)
      products
    = filter (λ p, selectedCategory = "all" ∨ category p = selectedCategory) products)
    as Hempty.
  { intros He. apply list_filter_iff. intros p.
    unfold InventoryList.matches. rewrite He, !includes_empty. simpl.
    rewrite orb_true_iff, !bool_decide_eq_true. tauto. }
  split; [apply sublist_filter|]. split; [|split; [done|]].
  - intros Hne. apply Forall_forall. intros p Hp.
    apply list_elem_of_filter in Hp as [Hp _].
    unfold InventoryList.matches in Hp.
    apply andb_true_iff in Hp as [_ Hp]. apply orb_true_iff in Hp as [Hp|Hp];
      apply bool_decide_eq_true in Hp; [contradiction|done].
  - intros He Hall. rewrite Hempty by done.
    apply App_more.filter_all. apply Forall_forall. intros; by left.
Qed.

End filter.

End components_spec.
